(** * social_peewee.storage: the peewee storage adapter of python-social-auth

    A shallow embedding of [social_peewee/storage.py].  The module [Py]
    holds the Python values, exceptions and the state-and-exception monad
    the methods run in; [Peewee] is a model of the part of the mapping
    engine the adapter calls (tables, expressions, select queries, model
    methods); [Storage] is the adapter itself, one definition per source
    function, kept under the source's names. *)

From Stdlib Require Import ZArith String List Ascii Bool Lia DecimalString.
From Stdlib Require Import DecimalFacts DecimalPos DecimalZ.
From stdpp Require Import base gmap strings list.

Local Open Scope string_scope.
Local Open Scope Z_scope.

(** ** Python values, exceptions and effects *)

Module Py.

(** The scalars that reach a database column or a keyword argument. *)
Inductive value :=
| VNone
| VBool (b : bool)
| VInt (n : Z)
| VStr (s : string).

#[global] Instance value_eq_dec : EqDecision value.
Proof. solve_decision. Defined.

(** Python truth value of a scalar, as tested by [if pk:]. *)
Definition truthy (v : value) : bool :=
  match v with
  | VNone => false
  | VBool b => b
  | VInt n => negb (Z.eqb n 0)
  | VStr s => negb (String.eqb s "")
  end.

(** [isinstance(v, six.string_types)] *)
Definition is_string (v : value) : bool :=
  match v with VStr _ => true | _ => false end.

(** [str(v)] on a scalar. *)
Definition str (v : value) : string :=
  match v with
  | VNone => "None"
  | VBool true => "True"
  | VBool false => "False"
  | VInt n => NilZero.string_of_int (Z.to_int n)
  | VStr s => s
  end.

(** The exceptions the adapter can meet.  [DoesNotExist] is a class per
    model, so it carries the model's name. *)
Inductive exn :=
| DoesNotExist (model_name : string)
| KeyError (key : string)
| AttributeError (type_name attr : string)
| TypeError (msg : string)
| ValueError (msg : string).

#[global] Instance exn_eq_dec : EqDecision exn.
Proof. solve_decision. Defined.

Inductive outcome (A : Type) :=
| Return (a : A)
| Raise (e : exn).
Arguments Return {A} a.
Arguments Raise {A} e.

(** A computation over a store [S] that returns or raises; a raise keeps
    the writes made before it. *)
Definition py (S A : Type) : Type := S -> outcome A * S.

Definition ret {S A} (a : A) : py S A := fun s => (Return a, s).

Definition raise {S A} (e : exn) : py S A := fun s => (Raise e, s).

Definition bind {S A B} (c : py S A) (k : A -> py S B) : py S B :=
  fun s =>
    match c s with
    | (Return a, s') => k a s'
    | (Raise e, s') => (Raise e, s')
    end.

(** [try: c  except E: h], where [caught] recognises the instances of [E]. *)
Definition try_except {S A} (c : py S A) (caught : exn -> bool) (h : py S A)
  : py S A :=
  fun s =>
    match c s with
    | (Raise e, s') => if caught e then h s' else (Raise e, s')
    | r => r
    end.

(** What the body of a [for] loop leaves behind: the loop variables, or
    the value of a [return] met inside the body. *)
Inductive flow (L R : Type) :=
| Continue (vars : L)
| Returned (r : R).
Arguments Continue {L R} vars.
Arguments Returned {L R} r.

End Py.

Export Py.

Declare Scope py_scope.
Delimit Scope py_scope with py.
Notation "x <- c ;; k" := (bind c (fun x => k))
  (at level 100, c at next level, right associativity) : py_scope.
Local Open Scope py_scope.

(** [for x in items: body], with the loop variables threaded through. *)
Fixpoint for_each {S A L R} (items : list A) (body : A -> L -> py S (flow L R))
  (vars : L) : py S (flow L R) :=
  match items with
  | [] => ret (Continue vars)
  | x :: rest =>
      f <- body x vars ;;
      match f with
      | Continue vars' => for_each rest body vars'
      | Returned r => ret (Returned r)
      end
  end.

(** ** The mapping engine

    The adapter is a client of peewee.  What it relies on is modelled
    here after the engine's public interface:
    - a table is the list of its rows, a row maps column names to values;
    - [select()] builds a query and runs nothing; [where] adds a clause;
      [count], [get] and iteration run the query;
    - [Model.get] runs a select and raises the model's [DoesNotExist] when
      no row is found; [Model.create] and [save] write a row;
    - [Model.get_or_create] is declared with keyword parameters only;
    - a select query has neither a [save] nor a [delete] method. *)

Module Peewee.

(** A stored row (and a model instance): its column values by name.  A
    column that is absent holds NULL. *)
Abbreviation row := (gmap string value).

(** A model class: its table and [_meta.fields]. *)
Record model := Model {
  model_name : string;
  meta_fields : list string
}.

(** The database behind [database_proxy]: the rows of each table, oldest
    first. *)
Abbreviation database := (gmap string (list row)).

Definition table (cls : model) (db : database) : list row :=
  default [] (db !! model_name cls).

Definition column (r : row) (f : string) : value := default VNone (r !! f).

(** Query expressions.  [NLit] is a Python constant met as an operand
    ([True], [None]); the others are built by the field operators
    [==], [!=], [<<] and by [&]. *)
Inductive node :=
| NLit (v : value)
| NEq (field : string) (v : value)
| NNe (field : string) (v : value)
| NIn (field : string) (vs : list value)
| NAnd (lhs rhs : node).

(** A Python object that is [None], [True] or an expression. *)
Abbreviation pyquery := (option node).

Definition operand (q : pyquery) : node :=
  match q with Some n => n | None => NLit VNone end.

(** [a & b] where one side at least is an expression. *)
Definition py_and (a b : pyquery) : pyquery :=
  Some (NAnd (operand a) (operand b)).

(** Whether a row passes an expression used as a WHERE clause.  Only
    conjunctions are built, so SQL's NULL (unknown) is merged with false:
    a comparison with a NULL column fails, [== None] is IS NULL, [!= None]
    is IS NOT NULL. *)
Fixpoint eval (n : node) (r : row) : bool :=
  match n with
  | NLit v => truthy v
  | NEq f v => bool_decide (column r f = v)
  | NNe f v =>
      match v with
      | VNone => negb (bool_decide (column r f = VNone))
      | _ => negb (bool_decide (column r f = VNone))
             && negb (bool_decide (column r f = v))
      end
  | NIn f vs =>
      negb (bool_decide (column r f = VNone)) && bool_decide (column r f ∈ vs)
  | NAnd a b => eval a r && eval b r
  end.

(** [cls._meta.fields[name]] *)
Definition meta_field (cls : model) (name : string) : py database string :=
  if bool_decide (name ∈ meta_fields cls) then ret name
  else raise (KeyError name).

(** A select query over a model; [sq_where = None] is no WHERE clause. *)
Record select_query := SelectQuery {
  sq_model : model;
  sq_where : pyquery
}.

(** [cls.select()] *)
Definition select (cls : model) : select_query :=
  {| sq_model := cls; sq_where := None |}.

(** [reduce(operator.and_, expressions)] *)
Definition reduce_and (first : pyquery) (others : list pyquery) : pyquery :=
  fold_left py_and others first.

(** [query.where(e1, ..., en)]: the expressions are and-ed together and
    with the clause the query already has; a lone [None] leaves the query
    without a clause. *)
Definition where_ (q : select_query) (expressions : list pyquery)
  : select_query :=
  let reduced :=
    match sq_where q, expressions with
    | Some w, es => reduce_and (Some w) es
    | None, e :: es => reduce_and e es
    | None, [] => None
    end in
  {| sq_model := sq_model q; sq_where := reduced |}.

Definition selects (q : select_query) (r : row) : bool :=
  match sq_where q with
  | None => true
  | Some n => eval n r
  end.

(** The rows a select query yields, in table order. *)
Definition execute (q : select_query) (db : database) : list row :=
  List.filter (selects q) (table (sq_model q) db).

(** [query.count()] *)
Definition count (q : select_query) : py database Z :=
  fun db => (Return (Z.of_nat (length (execute q db))), db).

(** [query.get()]: the first row, or [DoesNotExist] of the model. *)
Definition sq_get (q : select_query) : py database row :=
  fun db =>
    match execute q db with
    | r :: _ => (Return r, db)
    | [] => (Raise (DoesNotExist (model_name (sq_model q))), db)
    end.

(** [Model.get(e1, ..., en)], the engine's class method. *)
Definition Model_get (cls : model) (query : list pyquery) : py database row :=
  let sq := select cls in
  let sq := match query with [] => sq | _ => where_ sq query end in
  sq_get sq.

(** [except cls.DoesNotExist] *)
Definition is_DoesNotExist (cls : model) (e : exn) : bool :=
  match e with
  | DoesNotExist n => bool_decide (n = model_name cls)
  | _ => false
  end.

Definition row_id (r : row) : option Z :=
  match r !! "id" with
  | Some (VInt n) => Some n
  | _ => None
  end.

(** The key an insert assigns: one more than the largest in the table. *)
Definition next_id (rows : list row) : Z :=
  1 + foldr Z.max 0 (omap row_id rows).

(** INSERT: the new row goes last and receives its key. *)
Definition insert (cls : model) (r : row) : py database row :=
  fun db =>
    let rows := table cls db in
    let r' := <["id" := VInt (next_id rows)]> r in
    (Return r', <[model_name cls := (rows ++ [r'])%list]> db).

(** UPDATE ... WHERE id = the instance's key. *)
Definition update (cls : model) (r : row) : py database row :=
  fun db =>
    let rows := table cls db in
    let rows' :=
      List.map (fun old => if bool_decide (old !! "id" = r !! "id")
                           then r else old) rows in
    (Return r, <[model_name cls := rows']> db).

(** [instance.save()]: an update when the instance has a key, an insert
    when it has none.  The instance comes back with its key. *)
Definition save (cls : model) (r : row) : py database row :=
  match row_id r with
  | Some _ => update cls r
  | None => insert cls r
  end.

(** [cls(k1=v1, ..., kn=vn)]: an instance not yet stored. *)
Definition new_instance (kwargs : list (string * value)) : row :=
  list_to_map kwargs.

(** [Model.create(k1=v1, ..., kn=vn)] *)
Definition create (cls : model) (kwargs : list (string * value))
  : py database row :=
  insert cls (new_instance kwargs).

(** [Model.get_or_create(k1=v1, ..., kn=vn)].  The signature has keyword
    parameters only, so a call with positional arguments is a [TypeError]
    before any query is made.  With keywords it returns the first row
    whose columns equal them and [False], or creates that row and returns
    it with [True]. *)
Definition get_or_create (cls : model) (args : list pyquery)
  (kwargs : list (string * value)) : py database (row * bool) :=
  match args with
  | _ :: _ =>
      raise (TypeError "get_or_create() takes 1 positional argument")
  | [] =>
      let query :=
        fold_left (fun q '(f, v) => where_ q [Some (NEq f v)]) kwargs
                  (select cls) in
      try_except (r <- sq_get query ;; ret (r, false))
                 (is_DoesNotExist cls)
                 (r <- create cls kwargs ;; ret (r, true))
  end.

(** What a name can be bound to once it has been assigned the result of an
    engine call: a model instance or a select query. *)
Inductive object :=
| Instance (r : row)
| Query (q : select_query).

(** [obj.name = v].  On an instance this sets the column; on a query it is
    an ordinary Python attribute, which the engine never reads. *)
Definition setattr (o : object) (name : string) (v : value) : object :=
  match o with
  | Instance r => Instance (<[name := v]> r)
  | Query q => Query q
  end.

(** [obj.save()]: model instances have the method, select queries do not. *)
Definition call_save (cls : model) (o : object) : py database unit :=
  match o with
  | Instance r => _ <- save cls r ;; ret tt
  | Query _ => raise (AttributeError "SelectQuery" "save")
  end.

(** [query.delete()]: [delete] is a class method of models (it builds a
    DELETE query); a select query has no attribute of that name. *)
Definition sq_delete (q : select_query) : py database unit :=
  raise (AttributeError "SelectQuery" "delete").

(** The engine's exception classes, by qualified name together with the
    names of their proper ancestors ([__mro__] without its head). *)
Record pyclass := PyClass {
  qualname : string;
  ancestors : list string
}.

#[global] Instance pyclass_eq_dec : EqDecision pyclass.
Proof. solve_decision. Defined.

Definition IntegrityError : pyclass :=
  {| qualname := "peewee.IntegrityError";
     ancestors := ["peewee.DatabaseError"; "peewee.PeeweeException";
                   "Exception"; "BaseException"; "object"] |}.

(** [issubclass(c, d)] *)
Definition issubclass (c d : pyclass) : bool :=
  bool_decide (c = d) || bool_decide (qualname d ∈ ancestors c).

(** An exception object: [exception.__class__]. *)
Record exception := Exception {
  exc_class : pyclass
}.

(** [instance.delete_instance()]: DELETE ... WHERE id = the instance's
    key. *)
Definition delete_instance (cls : model) (r : row) : py database unit :=
  fun db =>
    let kept :=
      List.filter (fun old => negb (eval (NEq "id" (column r "id")) old))
                  (table cls db) in
    (Return tt, <[model_name cls := kept]> db).

(** A DELETE query that has been built and not run. *)
Record delete_query := DeleteQuery {
  dq_model : model;
  dq_where : pyquery
}.

(** [Model.delete()], a class method (also reachable through an
    instance): it builds the query and runs nothing. *)
Definition Model_delete (cls : model) : delete_query :=
  {| dq_model := cls; dq_where := None |}.

(** [Model.create] as a call that may carry positional arguments: the
    method is declared with keyword parameters only. *)
Definition create_call (cls : model) (args : list value)
  (kwargs : list (string * value)) : py database row :=
  match args with
  | [] => create cls kwargs
  | _ :: _ => raise (TypeError "create() takes 1 positional argument")
  end.

(** [cls.name] for a field of an application-defined model. *)
Definition class_field (cls : model) (name : string) : py database string :=
  if bool_decide (name ∈ meta_fields cls) then ret name
  else raise (AttributeError (model_name cls) name).

End Peewee.

Export Peewee.

(** ** [base64.encodestring] *)

Module Base64.

Definition alphabet : string :=
  "ABCDEFGHIJKLMNOPQRSTUVWXYZabcdefghijklmnopqrstuvwxyz0123456789+/".

Definition digit (n : N) : ascii :=
  default "="%char (String.get (N.to_nat n) alphabet).

Definition newline : string := String (ascii_of_nat 10) "".

(** [binascii.b2a_base64] without its final newline: three bytes give four
    digits, a shorter tail is padded with [=]. *)
Fixpoint b2a (bytes : list ascii) : string :=
  match bytes with
  | [] => ""
  | [a] =>
      let n := (N_of_ascii a * 65536)%N in
      String (digit (n / 262144)) (String (digit ((n / 4096) mod 64)) "==")
  | [a; b] =>
      let n := (N_of_ascii a * 65536 + N_of_ascii b * 256)%N in
      String (digit (n / 262144)) (String (digit ((n / 4096) mod 64))
        (String (digit ((n / 64) mod 64)) "="))
  | a :: b :: c :: rest =>
      let n := (N_of_ascii a * 65536 + N_of_ascii b * 256 + N_of_ascii c)%N in
      String (digit (n / 262144)) (String (digit ((n / 4096) mod 64))
        (String (digit ((n / 64) mod 64)) (String (digit (n mod 64))
          (b2a rest))))
  end.

(** One line of output for each 57 bytes of input, each ended by a
    newline. *)
Fixpoint encode_lines (fuel : nat) (bytes : list ascii) : string :=
  match fuel, bytes with
  | O, _ | _, [] => ""
  | S fuel', _ =>
      b2a (take 57 bytes) ++ newline ++ encode_lines fuel' (drop 57 bytes)
  end.

Definition encodestring (s : string) : string :=
  let bytes := list_ascii_of_string s in
  encode_lines (length bytes) bytes.

End Base64.

(** ** [json.dumps] and [json.loads] *)

Module Json.

#[local] Set Warnings "-register-all".





















(** The text after [c] when [s] begins with [c]. *)
Definition expect (c : ascii) (s : string) : option string :=
  match s with
  | String c' r => if Ascii.eqb c' c then Some r else None
  | "" => None
  end.

Fixpoint expect_string (lit s : string) : option string :=
  match lit with
  | "" => Some s
  | String c lit' =>
      match expect c s with
      | Some r => expect_string lit' r
      | None => None
      end
  end.












End Json.

(** ** Keyword dictionaries *)

Module PyDict.

(** A [dict] with string keys as the list of its items, each key once and
    in insertion order. *)
Abbreviation dict := (list (string * value)).

(** [k in d] *)
Definition contains (d : dict) (k : string) : bool :=
  bool_decide (k ∈ List.map fst d).

(** [d.get(k)] *)
Fixpoint get (d : dict) (k : string) : option value :=
  match d with
  | [] => None
  | (k', v) :: d' => if String.eqb k' k then Some v else get d' k
  end.

(** [del d[k]] *)
Fixpoint remove (d : dict) (k : string) : dict :=
  match d with
  | [] => []
  | (k', v) :: d' =>
      if String.eqb k' k then remove d' k else (k', v) :: remove d' k
  end.

(** [d.pop(k)]: the value and the dictionary without the key, [KeyError]
    when the key is missing. *)
Definition pop {S} (d : dict) (k : string) : py S (value * dict) :=
  match get d k with
  | Some v => ret (v, remove d k)
  | None => raise (KeyError k)
  end.

(** [d[k] = v] *)
Fixpoint setitem (d : dict) (k : string) (v : value) : dict :=
  match d with
  | [] => [(k, v)]
  | (k', v') :: d' =>
      if String.eqb k' k then (k', v) :: d' else (k', v') :: setitem d' k v
  end.

End PyDict.

(** ** The adapter: [social_peewee/storage.py] *)

Module Storage.

(** [JSONField]: the column type of [extra_data] and of the partial
    pipeline's [data]. *)
Module JSONField.



End JSONField.

(** [get_query_by_dict_param(cls, params)].  [params] lists the items of
    the dictionary in the order [params.items()] yields them.  The
    [return] is inside the loop body; when the loop ends without meeting
    it the function returns [None]. *)
Definition get_query_by_dict_param (cls : model)
  (params : list (string * value)) : py database pyquery :=
  let query : pyquery := Some (NLit (VBool true)) in
  f <- for_each params
         (fun '(field_name, value) (query : pyquery) =>
            field <- meta_field cls field_name ;;
            let query_item : pyquery := Some (NEq field value) in
            let query := py_and query query_item in
            ret (Returned (L := pyquery) query))
         query ;;
  match f with
  | Returned query => ret query
  | Continue _ => ret None
  end.

(** A user object handed in by the pipeline: the row of the user model it
    stands for and, when its class defines the method, what
    [has_usable_password()] answers. *)
Record user_object := UserObject {
  user_row : row;
  has_usable_password : option bool
}.

Module PeeweeUserMixin.
Section PeeweeUserMixin.

(** [cls] is the concrete association model (columns [id], [provider],
    [extra_data], [uid], [user]); [user_model] is what [cls.user_model()]
    returns. *)
Variable cls : model.
Variable user_model : model.

Definition allowed_to_disconnect (user : user_object) (backend_name : string)
  (association_id : value) : py database bool :=
  let query :=
    if negb (bool_decide (association_id = VNone))
    then where_ (select cls) [Some (NNe "id" association_id)]
    else where_ (select cls) [Some (NNe "provider" (VStr backend_name))] in
  let query := where_ query [Some (NEq "user" (column (user_row user) "id"))] in
  let valid_password :=
    match has_usable_password user with
    | Some answer => answer
    | None => true
    end in
  if valid_password then ret true
  else n <- count query ;; ret (0 <? n).

Definition user_exists (kwargs : list (string * value)) : py database bool :=
  query <- get_query_by_dict_param user_model kwargs ;;
  n <- count (where_ (select user_model) [query]) ;;
  ret (0 <? n).

Definition get_user (pk : value) (kwargs : list (string * value))
  : py database (option row) :=
  let kwargs := if truthy pk then [("id", pk)] else kwargs in
  try_except
    (query <- get_query_by_dict_param user_model kwargs ;;
     user <- Model_get user_model [query] ;;
     ret (Some user))
    (is_DoesNotExist user_model)
    (ret None).

Definition get_social_auth (provider : string) (uid : value)
  : py database (option row) :=
  let uid := if negb (is_string uid) then VStr (str uid) else uid in
  try_except
    (social <- sq_get (where_ (select cls)
                         [Some (NEq "provider" (VStr provider));
                          Some (NEq "uid" uid)]) ;;
     ret (Some social))
    (is_DoesNotExist cls)
    (ret None).

Definition create_social_auth (user : user_object) (uid : value)
  (provider : string) : py database row :=
  let uid := if negb (is_string uid) then VStr (str uid) else uid in
  create cls [("user", column (user_row user) "id");
              ("uid", uid);
              ("provider", VStr provider)].

(** The [USERNAME_FIELD] attribute of the user model, when it defines
    one. *)
Variable USERNAME_FIELD : option string.

(** The user is an instance of the user model. *)
Definition changed (user : user_object) : py database unit :=
  _ <- save user_model (user_row user) ;; ret tt.

Definition username_field : string :=
  match USERNAME_FIELD with
  | Some name => name
  | None => "username"
  end.

Definition disconnect (entry : row) : py database unit :=
  delete_instance cls entry.

(** [getattr(user, cls.username_field(), None)] *)
Definition get_username (user : row) : value :=
  match user !! username_field with
  | Some v => v
  | None => VNone
  end.

Definition create_user (args : list value) (kwargs : PyDict.dict)
  : py database row :=
  let username_field := username_field in
  kwargs <-
    (if PyDict.contains kwargs "username"
        && negb (PyDict.contains kwargs username_field)
     then
       popped <- PyDict.pop kwargs "username" ;;
       let '(username, kwargs) := popped in
       ret (PyDict.setitem kwargs username_field username)
     else ret kwargs) ;;
  create_call user_model args kwargs.

(** The query is returned as it is; the caller runs it. *)
Definition get_users_by_email (email : value) : py database select_query :=
  field <- class_field user_model "email" ;;
  ret (where_ (select user_model) [Some (NEq field email)]).

Definition get_social_auth_for_user (user : user_object) (provider : value)
  (id : value) : py database (list row) :=
  let query :=
    where_ (select cls) [Some (NEq "user" (column (user_row user) "id"))] in
  let query :=
    if truthy provider then where_ query [Some (NEq "provider" provider)]
    else query in
  let query :=
    if truthy id then where_ query [Some (NEq "id" id)] else query in
  fun db => (Return (execute query db), db).

End PeeweeUserMixin.
End PeeweeUserMixin.

Module PeeweeNonceMixin.

(** The three expressions go to [get_or_create] as positional arguments. *)
Definition use (cls : model) (server_url timestamp salt : value)
  : py database (row * bool) :=
  get_or_create cls
    [Some (NEq "server_url" server_url);
     Some (NEq "timestamp" timestamp);
     Some (NEq "salt" salt)]
    [].

End PeeweeNonceMixin.

(** The association object of the OpenID library that [store] receives. *)
Record openid_association := OpenIDAssociation {
  handle : string;
  secret : string;
  issued : Z;
  lifetime : Z;
  assoc_type : string
}.

Module PeeweeAssociationMixin.

(** [get(cls, *args, **kwargs)], defined by the class itself: it hides the
    engine's [Model.get] for this class, drops [args] and returns the
    select query without running it. *)
Definition get (cls : model) (args : list pyquery)
  (kwargs : list (string * value)) : py database select_query :=
  query <- get_query_by_dict_param cls kwargs ;;
  ret (where_ (select cls) [query]).

(** [cls.get] in the body is the class method above. *)
Definition store (cls : model) (server_url : string)
  (association : openid_association) : py database unit :=
  assoc <- try_except
             (q <- get cls [Some (NEq "server_url" (VStr server_url));
                            Some (NEq "handle" (VStr (handle association)))]
                           [] ;;
              ret (Query q))
             (is_DoesNotExist cls)
             (ret (Instance (new_instance
                               [("server_url", VStr server_url);
                                ("handle", VStr (handle association))]))) ;;
  let assoc :=
    setattr assoc "secret"
            (VStr (Base64.encodestring (secret association))) in
  let assoc := setattr assoc "issued" (VInt (issued association)) in
  let assoc := setattr assoc "lifetime" (VInt (lifetime association)) in
  let assoc := setattr assoc "assoc_type" (VStr (assoc_type association)) in
  call_save cls assoc.

Definition remove (cls : model) (ids_to_delete : list value)
  : py database unit :=
  sq_delete (where_ (select cls) [Some (NIn "id" ids_to_delete)]).

End PeeweeAssociationMixin.

Module PeeweeCodeMixin.

Definition get_code (cls : model) (code : value) : py database (option row) :=
  try_except
    (c <- Model_get cls [Some (NEq "code" code)] ;; ret (Some c))
    (is_DoesNotExist cls)
    (ret None).

End PeeweeCodeMixin.

Module PeeweePartialMixin.

Definition load (cls : model) (token : value) : py database (option row) :=
  try_except
    (p <- Model_get cls [Some (NEq "token" token)] ;; ret (Some p))
    (is_DoesNotExist cls)
    (ret None).

(** [partial.delete()] is the class method [Model.delete]: the query it
    builds is dropped without being run. *)
Definition destroy (cls : model) (token : value) : py database unit :=
  partial <- load cls token ;;
  match partial with
  | Some _ => let _ := Model_delete cls in ret tt
  | None => ret tt
  end.

End PeeweePartialMixin.

Module BasePeeweeStorage.

(** [exception.__class__ is IntegrityError] *)
Definition is_integrity_error (exception : Peewee.exception) : bool :=
  bool_decide (exc_class exception = IntegrityError).

End BasePeeweeStorage.

End Storage.

Export Storage.

(** ** A sample schema and store

    Concrete models and rows on which the adapter is run below. *)

Module Sample.

Definition User : model :=
  {| model_name := "user"; meta_fields := ["id"; "username"; "email"] |}.

Definition UserSocialAuth : model :=
  {| model_name := "usersocialauth";
     meta_fields := ["id"; "provider"; "extra_data"; "uid"; "user"] |}.

Definition Nonce : model :=
  {| model_name := "nonce";
     meta_fields := ["id"; "server_url"; "timestamp"; "salt"] |}.

Definition Association : model :=
  {| model_name := "association";
     meta_fields := ["id"; "server_url"; "handle"; "secret"; "issued";
                     "lifetime"; "assoc_type"] |}.

Definition alice : row :=
  list_to_map [("id", VInt 1); ("username", VStr "alice");
               ("email", VStr "alice@example.org")].

Definition bob : row :=
  list_to_map [("id", VInt 2); ("username", VStr "bob");
               ("email", VStr "bob@example.org")].

(** Two users, no other rows. *)
Definition users_only : database := {[ "user" := [alice; bob] ]}.



(** The first user under a class whose [has_usable_password()] is
    false. *)
Definition alice_no_password : user_object :=
  {| user_row := alice; has_usable_password := Some false |}.

Definition alice_google : row :=
  list_to_map [("id", VInt 1); ("provider", VStr "google");
               ("uid", VStr "123"); ("user", VInt 1)].

Definition one_association : database :=
  {[ "user" := [alice; bob]; "usersocialauth" := [alice_google] ]}.

Definition stored_association : row :=
  list_to_map [("id", VInt 1); ("server_url", VStr "https://op.example");
               ("handle", VStr "h1"); ("secret", VStr "b2xk");
               ("issued", VInt 10); ("lifetime", VInt 60);
               ("assoc_type", VStr "HMAC-SHA1")].

Definition one_openid_association : database :=
  {[ "association" := [stored_association] ]}.

Definition fresh_association : openid_association :=
  {| handle := "h1"; secret := "new"; issued := 20; lifetime := 60;
     assoc_type := "HMAC-SHA1" |}.

(** A second account of the first user with the same provider. *)
Definition alice_google_second : row :=
  list_to_map [("id", VInt 2); ("provider", VStr "google");
               ("uid", VStr "456"); ("user", VInt 1)].

Definition two_google_accounts : database :=
  {[ "user" := [alice; bob];
     "usersocialauth" := [alice_google; alice_google_second] ]}.


Definition stranger : user_object :=
  {| user_row := list_to_map [("id", VInt 7); ("username", VStr "eve")];
     has_usable_password := None |}.


(** A driver's exception class derived from the engine's. *)
Definition UniqueViolation : pyclass :=
  {| qualname := "driver.UniqueViolation";
     ancestors := qualname IntegrityError :: ancestors IntegrityError |}.

End Sample.

(** * Properties *)

(** ** The monad and the loop *)

Lemma for_each_nil {S A L R} (body : A -> L -> py S (flow L R)) vars s :
  for_each [] body vars s = (Return (Continue vars), s).
Proof. reflexivity. Qed.

(** A body that always returns ends the loop at the first item. *)
Lemma for_each_returns_at_first {S A L R} (body : A -> L -> py S (flow L R))
  x rest vars s r s' :
  body x vars s = (Return (Returned r), s') ->
  for_each (x :: rest) body vars s = (Return (Returned r), s').
Proof.
  intros Hbody. simpl. unfold bind. rewrite Hbody. reflexivity.
Qed.

(** ** The predicate builder *)

(** On a mapping with at least one entry whose field the model has, the
    builder returns the equality test of the first entry, whatever
    follows. *)
Lemma get_query_by_dict_param_first cls field v rest db :
  field ∈ meta_fields cls ->
  get_query_by_dict_param cls ((field, v) :: rest) db
  = (Return (Some (NAnd (NLit (VBool true)) (NEq field v))), db).
Proof.
  intros Hin. unfold get_query_by_dict_param, bind. simpl.
  unfold bind, meta_field. rewrite bool_decide_eq_true_2 by exact Hin.
  reflexivity.
Qed.

(** An unknown field name is a [KeyError]. *)
Lemma get_query_by_dict_param_unknown cls field v rest db :
  field ∉ meta_fields cls ->
  get_query_by_dict_param cls ((field, v) :: rest) db
  = (Raise (KeyError field), db).
Proof.
  intros Hin. unfold get_query_by_dict_param, bind. simpl.
  unfold bind, meta_field. rewrite bool_decide_eq_false_2 by exact Hin.
  reflexivity.
Qed.


(** The engine reads a lone [None] as no WHERE clause. *)
Lemma where_None_selects_all cls db :
  execute (where_ (select cls) [None]) db = table cls db.
Proof.
  unfold execute, selects. simpl.
  induction (table cls db) as [|r rows IH]; simpl; [reflexivity|].
  by rewrite IH.
Qed.

(** ** The opaque-blob codec *)

Section JsonCodec.

Import Json.

Lemma string_app_cons x (a b : string) :
  (String x a ++ b = String x (a ++ b))%string.
Proof. reflexivity. Qed.





Lemma expect_string_app lit rest :
  expect_string lit (lit ++ rest) = Some rest.
Proof.
  induction lit as [|c lit IH]; [reflexivity|].
  rewrite string_app_cons. simpl. by rewrite Ascii.eqb_refl.
Qed.


(** *** Strings *)







(** *** Integers *)
















(** *** Nested values *)
































End JsonCodec.



(** ** The storage facade *)

(** C10.  [is_integrity_error] answers true exactly for an exception whose
    class is [IntegrityError] itself: an instance of a proper subclass, or
    of a class that does not derive from it, gets false. *)
Theorem is_integrity_error_exact (exception : Peewee.exception) :
  (BasePeeweeStorage.is_integrity_error exception = true
   <-> exc_class exception = IntegrityError)
  /\ (issubclass (exc_class exception) IntegrityError = true ->
      exc_class exception <> IntegrityError ->
      BasePeeweeStorage.is_integrity_error exception = false)
  /\ (issubclass (exc_class exception) IntegrityError = false ->
      BasePeeweeStorage.is_integrity_error exception = false).
Proof.
  unfold BasePeeweeStorage.is_integrity_error. split; [|split].
  - apply bool_decide_eq_true.
  - intros _ Hne. by apply bool_decide_eq_false.
  - intros Hsub. apply bool_decide_eq_false. intros Heq.
    rewrite Heq in Hsub. unfold issubclass in Hsub.
    rewrite bool_decide_eq_true_2 in Hsub by reflexivity. discriminate.
Qed.

Lemma is_integrity_error_exact_witness :
  issubclass Sample.UniqueViolation IntegrityError = true
  /\ Sample.UniqueViolation <> IntegrityError
  /\ BasePeeweeStorage.is_integrity_error
       {| exc_class := Sample.UniqueViolation |} = false.
Proof.
  split; [reflexivity|]. split; [discriminate|].
  apply (proj1 (proj2 (is_integrity_error_exact
                         {| exc_class := Sample.UniqueViolation |})));
    [reflexivity | discriminate].
Defined.

(** ** Queries *)

Lemma table_insert cls rows (db : database) :
  table cls (<[model_name cls := rows]> db) = rows.
Proof. unfold table. by rewrite lookup_insert_eq. Qed.

(** A query without a matching row has no first row. *)
Lemma sq_get_absent q db :
  Forall (fun r => selects q r = false) (table (sq_model q) db) ->
  sq_get q db = (Raise (DoesNotExist (model_name (sq_model q))), db).
Proof.
  intros Hnone. unfold sq_get, execute.
  induction Hnone as [|r rows Hr _ IH]; [reflexivity|].
  simpl. rewrite Hr. exact IH.
Qed.

(** [query.get()] raises nothing but the model's [DoesNotExist], and
    leaves the store as it is. *)
Lemma sq_get_outcome q db :
  (exists r, sq_get q db = (Return r, db) /\ r ∈ table (sq_model q) db
             /\ selects q r = true)
  \/ sq_get q db = (Raise (DoesNotExist (model_name (sq_model q))), db).
Proof.
  unfold sq_get. destruct (execute q db) as [|r rows] eqn:Hex; [by right|].
  left. exists r. split; [reflexivity|].
  assert (Hin : In r (execute q db)) by (rewrite Hex; left; reflexivity).
  unfold execute in Hin. apply filter_In in Hin as [Hin Hsel].
  split; [by apply list_elem_of_In | exact Hsel].
Qed.

Lemma is_DoesNotExist_own cls :
  is_DoesNotExist cls (DoesNotExist (model_name cls)) = true.
Proof. simpl. by apply bool_decide_eq_true_2. Qed.

(** A count is positive exactly when some row passes. *)
Lemma count_positive q db :
  exists n, count q db = (Return n, db)
            /\ (Z.ltb 0 n = true
                <-> exists r, r ∈ table (sq_model q) db /\ selects q r = true).
Proof.
  eexists. split; [reflexivity|].
  unfold execute. rewrite Z.ltb_lt.
  induction (table (sq_model q) db) as [|r rows IH]; simpl.
  - split; [lia|]. intros (r & Hin & _). by apply elem_of_nil in Hin.
  - destruct (selects q r) eqn:Hr.
    + split; [|simpl; lia]. intros _. exists r. split; [left|exact Hr].
    + rewrite IH. split.
      * intros (r' & Hin & Hsel). exists r'. split; [by right|exact Hsel].
      * intros (r' & Hin & Hsel). apply elem_of_cons in Hin as [->|Hin];
          [congruence|]. eauto.
Qed.

(** ** The user-association store *)

(** C1 (the code departs from it).  With two criteria [user_exists]
    answers from the first alone: it is true here although no user has
    both the user name and the e-mail address asked for, in whichever
    order the criteria are met. *)
Theorem user_exists_first_criterion_only :
  let criteria := [("username", VStr "alice");
                   ("email", VStr "bob@example.org")] in
  PeeweeUserMixin.user_exists Sample.User criteria Sample.users_only
  = (Return true, Sample.users_only)
  /\ PeeweeUserMixin.user_exists Sample.User (rev criteria) Sample.users_only
     = (Return true, Sample.users_only)
  /\ Forall (fun u => ~ (column u "username" = VStr "alice"
                        /\ column u "email" = VStr "bob@example.org"))
            (table Sample.User Sample.users_only).
Proof.
  split; [reflexivity|]. split; [reflexivity|].
  repeat constructor; intros [H1 H2]; vm_compute in H1, H2; congruence.
Qed.

(** C7 (the code departs from it).  [get_user] with two criteria returns a
    user although no stored user matches them: the lookup is made with the
    first criterion alone. *)
Theorem get_user_returns_partial_match :
  let criteria := [("username", VStr "alice");
                   ("email", VStr "bob@example.org")] in
  PeeweeUserMixin.get_user Sample.User VNone criteria Sample.users_only
  = (Return (Some Sample.alice), Sample.users_only)
  /\ PeeweeUserMixin.get_user Sample.User VNone (rev criteria)
       Sample.users_only
     = (Return (Some Sample.bob), Sample.users_only)
  /\ Forall (fun u => ~ (column u "username" = VStr "alice"
                        /\ column u "email" = VStr "bob@example.org"))
            (table Sample.User Sample.users_only).
Proof.
  split; [reflexivity|]. split; [reflexivity|].
  repeat constructor; intros [H1 H2]; vm_compute in H1, H2; congruence.
Qed.

(** ** The nonce store *)

(** C2 (the code departs from it).  [use] hands its three expressions to
    [get_or_create] as positional arguments, which that method does not
    take: every call raises [TypeError], returns no pair and stores no
    row. *)
Theorem use_raises_TypeError cls server_url timestamp salt db :
  PeeweeNonceMixin.use cls server_url timestamp salt db
  = (Raise (TypeError "get_or_create() takes 1 positional argument"), db).
Proof. reflexivity. Qed.

(** Called with keywords, the engine's [get_or_create] is the get-or-create
    the nonce store is after: a second call with the same three values
    returns the same row, reports that it created nothing, and leaves the
    store as it is. *)
Lemma get_or_create_keywords_idempotent cls server_url timestamp salt db :
  let kwargs := [("server_url", server_url); ("timestamp", timestamp);
                 ("salt", salt)] in
  exists nonce created db1,
    get_or_create cls [] kwargs db = (Return (nonce, created), db1)
    /\ get_or_create cls [] kwargs db1 = (Return (nonce, false), db1).
Proof.
  intros kwargs. unfold get_or_create, try_except, bind, kwargs.
  cbn [fold_left]. set (q := where_ _ _).
  assert (Hmodel : sq_model q = cls) by reflexivity.
  destruct (execute q db) as [|r rows] eqn:Hex.
  - unfold sq_get at 1. rewrite Hex, Hmodel, is_DoesNotExist_own.
    unfold create, insert. eexists. eexists. eexists.
    split; [reflexivity|].
    unfold sq_get, execute. rewrite Hmodel, table_insert, List.filter_app.
    unfold execute in Hex. rewrite Hmodel in Hex. rewrite Hex.
    unfold selects. simpl.
    rewrite !bool_decide_eq_true_2 by reflexivity. reflexivity.
  - exists r, false, db. unfold sq_get. rewrite Hex. split; reflexivity.
Qed.

Example use_on_empty_store :
  PeeweeNonceMixin.use Sample.Nonce (VStr "https://op.example")
    (VStr "1700000000") (VStr "abc") ∅
  = (Raise (TypeError "get_or_create() takes 1 positional argument"), ∅).
Proof. reflexivity. Qed.

(** ** The association store *)

(** The class's own [get] never raises on known fields and never runs the
    query. *)
Lemma PeeweeAssociationMixin_get_no_kwargs cls args db :
  PeeweeAssociationMixin.get cls args [] db
  = (Return (where_ (select cls) [None]), db).
Proof. reflexivity. Qed.

(** C3 (the code departs from it).  In [store], [cls.get] is the class's
    own [get]: it returns a select query, so [DoesNotExist] is never
    raised, no instance is built, and [save] is looked up on the query.
    Every call raises [AttributeError] and leaves the table as it was:
    nothing is inserted and nothing is updated. *)
Theorem store_never_saves cls server_url association db :
  PeeweeAssociationMixin.store cls server_url association db
  = (Raise (AttributeError "SelectQuery" "save"), db).
Proof. reflexivity. Qed.

(** C8 (the code departs from it).  [remove] calls [delete] on a select
    query, which has no such method: every call raises [AttributeError]
    and deletes nothing. *)
Theorem remove_raises_AttributeError cls ids_to_delete db :
  PeeweeAssociationMixin.remove cls ids_to_delete db
  = (Raise (AttributeError "SelectQuery" "delete"), db).
Proof. reflexivity. Qed.

(** On a table that already holds the key, the stored secret stays what it
    was; with ids of which one exists, nothing is deleted. *)
Example store_on_stored_key :
  PeeweeAssociationMixin.store Sample.Association "https://op.example"
    Sample.fresh_association Sample.one_openid_association
  = (Raise (AttributeError "SelectQuery" "save"),
     Sample.one_openid_association)
  /\ table Sample.Association Sample.one_openid_association
     = [Sample.stored_association]
  /\ column Sample.stored_association "secret" = VStr "b2xk".
Proof. repeat split. Qed.

Example remove_one_of_two :
  PeeweeAssociationMixin.remove Sample.Association [VInt 1; VInt 2]
    Sample.one_openid_association
  = (Raise (AttributeError "SelectQuery" "delete"),
     Sample.one_openid_association).
Proof. reflexivity. Qed.

(** ** Lookups that find nothing *)

Lemma get_social_auth_absent cls provider uid db :
  Forall (fun r => ~ (column r "provider" = VStr provider
                     /\ column r "uid" = VStr (str uid)))
         (table cls db) ->
  PeeweeUserMixin.get_social_auth cls provider uid db = (Return None, db).
Proof.
  intros Hnone. unfold PeeweeUserMixin.get_social_auth, try_except, bind.
  rewrite sq_get_absent.
  - cbn [sq_model where_ select]. by rewrite is_DoesNotExist_own.
  - cbn [sq_model where_ select]. eapply Forall_impl; [exact Hnone|].
    intros r Hr. unfold selects. simpl.
    apply andb_false_iff.
    destruct (decide (column r "provider" = VStr provider)) as [Hp|Hp].
    + right. apply bool_decide_eq_false. intros Hu. apply Hr. split; [done|].
      rewrite Hu. by destruct uid.
    + left. by apply bool_decide_eq_false.
Qed.

Lemma Model_get_absent cls field v db :
  Forall (fun r => column r field <> v) (table cls db) ->
  Model_get cls [Some (NEq field v)] db
  = (Raise (DoesNotExist (model_name cls)), db).
Proof.
  intros Hnone. unfold Model_get. rewrite sq_get_absent; [reflexivity|].
  cbn [sq_model where_ select]. eapply Forall_impl; [exact Hnone|].
  intros r Hr. unfold selects. simpl. by apply bool_decide_eq_false.
Qed.

Lemma get_code_absent cls code db :
  Forall (fun r => column r "code" <> code) (table cls db) ->
  PeeweeCodeMixin.get_code cls code db = (Return None, db).
Proof.
  intros Hnone. unfold PeeweeCodeMixin.get_code, try_except, bind.
  rewrite Model_get_absent by exact Hnone. by rewrite is_DoesNotExist_own.
Qed.

Lemma load_absent cls token db :
  Forall (fun r => column r "token" <> token) (table cls db) ->
  PeeweePartialMixin.load cls token db = (Return None, db).
Proof.
  intros Hnone. unfold PeeweePartialMixin.load, try_except, bind.
  rewrite Model_get_absent by exact Hnone. by rewrite is_DoesNotExist_own.
Qed.

(** A lookup by primary key that finds no user returns [None]. *)
Lemma get_user_pk_absent user_model pk kwargs db :
  truthy pk = true ->
  "id" ∈ meta_fields user_model ->
  Forall (fun r => column r "id" <> pk) (table user_model db) ->
  PeeweeUserMixin.get_user user_model pk kwargs db = (Return None, db).
Proof.
  intros Hpk Hid Hnone. unfold PeeweeUserMixin.get_user. rewrite Hpk.
  unfold try_except, bind.
  rewrite get_query_by_dict_param_first by exact Hid.
  unfold Model_get. rewrite sq_get_absent.
  - cbn [sq_model where_ select]. by rewrite is_DoesNotExist_own.
  - cbn [sq_model where_ select]. eapply Forall_impl; [exact Hnone|].
    intros r Hr. unfold selects. simpl. by apply bool_decide_eq_false.
Qed.

(** ** Creating and finding an association *)

Lemma uid_coerced uid :
  (if negb (is_string uid) then VStr (str uid) else uid) = VStr (str uid).
Proof. by destruct uid. Qed.




(** ** Disconnecting *)




(** The two cases the claim singles out, on the sample store. *)
Example allowed_to_disconnect_password_alone :
  PeeweeUserMixin.allowed_to_disconnect Sample.UserSocialAuth
    {| user_row := Sample.alice; has_usable_password := Some true |}
    "google" VNone Sample.users_only
  = (Return true, Sample.users_only).
Proof. reflexivity. Qed.

Example allowed_to_disconnect_last_association :
  PeeweeUserMixin.allowed_to_disconnect Sample.UserSocialAuth
    Sample.alice_no_password "google" VNone Sample.one_association
  = (Return false, Sample.one_association)
  /\ PeeweeUserMixin.allowed_to_disconnect Sample.UserSocialAuth
       Sample.alice_no_password "google" (VInt 1) Sample.one_association
     = (Return false, Sample.one_association).
Proof. split; reflexivity. Qed.

(** * Further properties of the adapter *)

(** ** Lookups as searches of the table *)

Lemma find_ext {A} (f g : A -> bool) l :
  (forall x, f x = g x) -> List.find f l = List.find g l.
Proof.
  intros Hfg. induction l as [|x l IH]; [reflexivity|].
  simpl. rewrite Hfg, IH. reflexivity.
Qed.

(** [query.get()] is a search for the first row the query selects. *)
Lemma sq_get_find q db :
  sq_get q db
  = (match List.find (selects q) (table (sq_model q) db) with
     | Some r => Return r
     | None => Raise (DoesNotExist (model_name (sq_model q)))
     end, db).
Proof.
  unfold sq_get, execute.
  induction (table (sq_model q) db) as [|r rows IH]; [reflexivity|].
  simpl. destruct (selects q r); [reflexivity | exact IH].
Qed.

(** A lookup guarded by [except DoesNotExist] turns the search into an
    optional row. *)
Lemma guarded_get_find q db :
  try_except (r <- sq_get q ;; ret (Some r))
             (is_DoesNotExist (sq_model q)) (ret None) db
  = (Return (List.find (selects q) (table (sq_model q) db)), db).
Proof.
  unfold try_except, bind. rewrite sq_get_find.
  destruct (List.find _ _); [reflexivity|].
  by rewrite is_DoesNotExist_own.
Qed.

(** The builder on an empty mapping, for use below. *)
Lemma get_query_by_dict_param_empty_args cls db :
  get_query_by_dict_param cls [] db = (Return None, db).
Proof. reflexivity. Qed.

Lemma load_find cls token db :
  PeeweePartialMixin.load cls token db
  = (Return (List.find (fun r => bool_decide (column r "token" = token))
                       (table cls db)), db).
Proof.
  unfold PeeweePartialMixin.load, Model_get.
  set (q := where_ (select cls) _).
  change (is_DoesNotExist cls) with (is_DoesNotExist (sq_model q)).
  rewrite guarded_get_find. reflexivity.
Qed.

Lemma get_social_auth_find cls provider uid db :
  PeeweeUserMixin.get_social_auth cls provider uid db
  = (Return (List.find
               (fun r => bool_decide (column r "provider" = VStr provider)
                         && bool_decide (column r "uid" = VStr (str uid)))
               (table cls db)), db).
Proof.
  unfold PeeweeUserMixin.get_social_auth. rewrite uid_coerced.
  set (q := where_ (select cls) _).
  change (is_DoesNotExist cls) with (is_DoesNotExist (sq_model q)).
  rewrite guarded_get_find. reflexivity.
Qed.

Lemma get_code_find cls code db :
  PeeweeCodeMixin.get_code cls code db
  = (Return (List.find (fun r => bool_decide (column r "code" = code))
                       (table cls db)), db).
Proof.
  unfold PeeweeCodeMixin.get_code, Model_get.
  set (q := where_ (select cls) _).
  change (is_DoesNotExist cls) with (is_DoesNotExist (sq_model q)).
  rewrite guarded_get_find. reflexivity.
Qed.

(** X1.  The predicate builder reads the first item of the mapping and
    nothing after it: two mappings that begin with the same item give the
    same result, be it a predicate or a [KeyError]. *)
Theorem get_query_by_dict_param_ignores_rest cls field v rest rest' db :
  get_query_by_dict_param cls ((field, v) :: rest) db
  = get_query_by_dict_param cls ((field, v) :: rest') db.
Proof.
  destruct (decide (field ∈ meta_fields cls)) as [Hin|Hout].
  - by rewrite !get_query_by_dict_param_first.
  - by rewrite !get_query_by_dict_param_unknown.
Qed.

(** X2.  With a single criterion on a field of the user model,
    [user_exists] is true exactly when a stored user has that value in
    that field, and it leaves the store alone. *)
Theorem user_exists_single_criterion user_model field v db :
  field ∈ meta_fields user_model ->
  exists found,
    PeeweeUserMixin.user_exists user_model [(field, v)] db = (Return found, db)
    /\ (found = true
        <-> exists u, u ∈ table user_model db /\ column u field = v).
Proof.
  intros Hfield. unfold PeeweeUserMixin.user_exists, bind.
  rewrite get_query_by_dict_param_first by exact Hfield.
  set (q := where_ _ _).
  destruct (count_positive q db) as (n & Hcount & Hpos).
  exists (Z.ltb 0 n). rewrite Hcount. split; [reflexivity|].
  rewrite Hpos. unfold q, selects. simpl.
  split; intros (u & Hin & Hu); exists u; (split; [exact Hin|]).
  - by apply bool_decide_eq_true in Hu.
  - by apply bool_decide_eq_true.
Qed.

Lemma user_exists_single_criterion_witness :
  "email" ∈ meta_fields Sample.User
  /\ exists found,
       PeeweeUserMixin.user_exists Sample.User
         [("email", VStr "bob@example.org")] Sample.users_only
       = (Return found, Sample.users_only)
       /\ (found = true
           <-> exists u, u ∈ table Sample.User Sample.users_only
                         /\ column u "email" = VStr "bob@example.org").
Proof.
  assert (Hfield : "email" ∈ meta_fields Sample.User)
    by (apply (proj1 (bool_decide_eq_true _)); reflexivity).
  split; [exact Hfield|].
  exact (user_exists_single_criterion Sample.User "email"
           (VStr "bob@example.org") Sample.users_only Hfield).
Defined.

(** X3.  A first criterion that names a field the user model does not
    have makes [user_exists] and [get_user] raise [KeyError]: the
    [except] clause of [get_user] catches [DoesNotExist] only, so the
    error is not turned into [None].  The store is left alone. *)
Theorem unknown_field_raises_KeyError user_model field v rest pk db :
  (field ∉ meta_fields user_model) ->
  truthy pk = false ->
  PeeweeUserMixin.user_exists user_model ((field, v) :: rest) db
  = (Raise (KeyError field), db)
  /\ PeeweeUserMixin.get_user user_model pk ((field, v) :: rest) db
     = (Raise (KeyError field), db).
Proof.
  intros Hfield Hpk. split.
  - unfold PeeweeUserMixin.user_exists, bind.
    by rewrite get_query_by_dict_param_unknown.
  - unfold PeeweeUserMixin.get_user, try_except, bind. rewrite Hpk.
    by rewrite get_query_by_dict_param_unknown.
Qed.

Lemma unknown_field_raises_KeyError_witness :
  ("nickname" ∉ meta_fields Sample.User)
  /\ truthy VNone = false
  /\ PeeweeUserMixin.user_exists Sample.User [("nickname", VStr "al")]
       Sample.users_only
     = (Raise (KeyError "nickname"), Sample.users_only)
  /\ PeeweeUserMixin.get_user Sample.User VNone [("nickname", VStr "al")]
       Sample.users_only
     = (Raise (KeyError "nickname"), Sample.users_only).
Proof.
  assert (Hfield : "nickname" ∉ meta_fields Sample.User)
    by (apply (proj1 (bool_decide_eq_false _)); reflexivity).
  split; [exact Hfield|]. split; [reflexivity|].
  exact (unknown_field_raises_KeyError Sample.User "nickname" (VStr "al") []
           VNone Sample.users_only Hfield eq_refl).
Defined.




(** X5.  Without a usable key ([None], [0], an empty string) and without
    criteria, [get_user] returns the first user of the table, whoever
    that is; it returns [None] only when the table is empty. *)
Theorem get_user_without_key user_model pk db :
  truthy pk = false ->
  PeeweeUserMixin.get_user user_model pk [] db
  = (Return (head (table user_model db)), db).
Proof.
  intros Hpk. unfold PeeweeUserMixin.get_user. rewrite Hpk.
  unfold try_except, bind. rewrite get_query_by_dict_param_empty_args.
  unfold Model_get, sq_get. rewrite where_None_selects_all.
  destruct (table user_model db); [|reflexivity].
  simpl. rewrite bool_decide_eq_true_2 by reflexivity. reflexivity.
Qed.

Lemma get_user_without_key_witness :
  truthy (VInt 0) = false
  /\ PeeweeUserMixin.get_user Sample.User (VInt 0) [] Sample.users_only
     = (Return (Some Sample.alice), Sample.users_only).
Proof.
  split; [reflexivity|].
  exact (get_user_without_key Sample.User (VInt 0) Sample.users_only eq_refl).
Defined.

(** X6.  [get_social_auth] returns the first stored association whose
    provider is the one given and whose uid is the text of the uid given,
    and [None] when there is none: the integer 123 and the string "123"
    find the same association.  The store is left alone. *)
Theorem get_social_auth_first_match cls provider uid db :
  PeeweeUserMixin.get_social_auth cls provider uid db
  = (Return (List.find
               (fun r => bool_decide (column r "provider" = VStr provider)
                         && bool_decide (column r "uid" = VStr (str uid)))
               (table cls db)), db).
Proof. exact (get_social_auth_find cls provider uid db). Qed.

(** X7.  [get_code] returns the first stored code row whose code is the
    one given, and [None] when there is none. *)
Theorem get_code_first_match cls code db :
  PeeweeCodeMixin.get_code cls code db
  = (Return (List.find (fun r => bool_decide (column r "code" = code))
                       (table cls db)), db).
Proof. exact (get_code_find cls code db). Qed.

(** X8.  [load] returns the first stored partial whose token is the one
    given, and [None] when there is none. *)
Theorem load_first_match cls token db :
  PeeweePartialMixin.load cls token db
  = (Return (List.find (fun r => bool_decide (column r "token" = token))
                       (table cls db)), db).
Proof. exact (load_find cls token db). Qed.

(** X9.  [destroy] never deletes: [partial.delete()] only builds a DELETE
    query, which is dropped.  Whether or not a partial with the token is
    stored, the call returns without an error and the store is what it
    was. *)
Theorem destroy_never_deletes cls token db :
  PeeweePartialMixin.destroy cls token db = (Return tt, db).
Proof.
  unfold PeeweePartialMixin.destroy, bind. rewrite load_find.
  destruct (List.find _ _); reflexivity.
Qed.

(** ** Creating, listing and removing associations *)

Lemma column_id_int (r : row) n :
  column r "id" = VInt n <-> row_id r = Some n.
Proof.
  unfold column, row_id. destruct (r !! "id") as [[]|]; simpl;
    split; intros H; congruence.
Qed.

(** The key an insert assigns is the key of no row of the table. *)
Lemma next_id_fresh rows :
  Forall (fun r => column r "id" <> VInt (next_id rows)) rows.
Proof.
  assert (Hle : forall r n, r ∈ rows -> row_id r = Some n ->
                            n <= foldr Z.max 0 (omap row_id rows)).
  { induction rows as [|x rows IH]; intros r n Hin Hn;
      [by apply elem_of_nil in Hin|].
    change (omap row_id (x :: rows))
      with (match row_id x with
            | Some y => y :: omap row_id rows
            | None => omap row_id rows
            end).
    apply elem_of_cons in Hin as [->|Hin].
    - rewrite Hn. simpl. lia.
    - specialize (IH r n Hin Hn). destruct (row_id x); simpl; lia. }
  apply Forall_forall. intros r Hin Heq.
  apply column_id_int in Heq. specialize (Hle r _ Hin Heq).
  unfold next_id in Hle. lia.
Qed.

Lemma filter_all {A} (f : A -> bool) l :
  Forall (fun x => f x = true) l -> List.filter f l = l.
Proof.
  induction 1 as [|x l Hx _ IH]; [reflexivity|]. simpl. by rewrite Hx, IH.
Qed.


(** What [create_social_auth] does to the store, for use below. *)
Lemma create_social_auth_effect cls user uid provider db :
  let social :=
    <["id" := VInt (next_id (table cls db))]>
      (new_instance [("user", column (user_row user) "id");
                     ("uid", VStr (str uid));
                     ("provider", VStr provider)]) in
  PeeweeUserMixin.create_social_auth cls user uid provider db
  = (Return social,
     <[model_name cls := (table cls db ++ [social])%list]> db).
Proof.
  intros social. unfold PeeweeUserMixin.create_social_auth, create, insert.
  by rewrite uid_coerced.
Qed.


(** X11.  Nothing in the adapter keeps (provider, uid) unique: creating
    the same association twice stores two rows with the same user,
    provider and uid under different keys. *)
Theorem create_social_auth_twice cls user uid provider db :
  exists first db1 second db2,
    PeeweeUserMixin.create_social_auth cls user uid provider db
    = (Return first, db1)
    /\ PeeweeUserMixin.create_social_auth cls user uid provider db1
       = (Return second, db2)
    /\ table cls db2 = (table cls db ++ [first; second])%list
    /\ column first "id" <> column second "id"
    /\ column first "provider" = column second "provider"
    /\ column first "uid" = column second "uid"
    /\ column first "user" = column second "user".
Proof.
  pose (first := <["id" := VInt (next_id (table cls db))]>
                   (new_instance [("user", column (user_row user) "id");
                                  ("uid", VStr (str uid));
                                  ("provider", VStr provider)])).
  exists first, (<[model_name cls := (table cls db ++ [first])%list]> db).
  eexists. eexists.
  split; [apply create_social_auth_effect|].
  split; [apply create_social_auth_effect|].
  rewrite !table_insert. split; [by rewrite <- app_assoc|].
  split; [|done].
  pose proof (next_id_fresh (table cls db ++ [first])%list) as Hfresh.
  rewrite Forall_app, Forall_singleton in Hfresh.
  destruct Hfresh as [_ Hfresh].
  intros Heq. apply Hfresh. rewrite Heq. reflexivity.
Qed.

(** X12.  [disconnect] undoes [create_social_auth]: deleting the
    association just created leaves the association table as it was
    before the creation. *)
Theorem disconnect_after_create cls user uid provider db :
  exists social db1 db2,
    PeeweeUserMixin.create_social_auth cls user uid provider db
    = (Return social, db1)
    /\ PeeweeUserMixin.disconnect cls social db1 = (Return tt, db2)
    /\ table cls db2 = table cls db.
Proof.
  eexists. eexists. eexists.
  split; [apply create_social_auth_effect|].
  split; [reflexivity|].
  rewrite !table_insert, List.filter_app, filter_all.
  - simpl. rewrite bool_decide_eq_true_2 by reflexivity. simpl.
    by rewrite app_nil_r.
  - eapply Forall_impl; [exact (next_id_fresh (table cls db))|].
    intros r Hr. simpl. apply negb_true_iff. by apply bool_decide_eq_false.
Qed.

Lemma filter_ext_bool {A} (f g : A -> bool) l :
  (forall x, f x = g x) -> List.filter f l = List.filter g l.
Proof.
  intros Hfg. induction l as [|x l IH]; [reflexivity|].
  simpl. by rewrite Hfg, IH.
Qed.

(** What [get_social_auth_for_user] returns, for use below. *)
Lemma get_social_auth_for_user_rows cls user provider id db :
  PeeweeUserMixin.get_social_auth_for_user cls user provider id db
  = (Return
       (List.filter
          (fun r =>
             bool_decide (column r "user" = column (user_row user) "id")
             && (negb (truthy provider)
                 || bool_decide (column r "provider" = provider))
             && (negb (truthy id) || bool_decide (column r "id" = id)))
          (table cls db)), db).
Proof.
  unfold PeeweeUserMixin.get_social_auth_for_user, execute.
  f_equal. f_equal.
  destruct (truthy provider), (truthy id); cbn [sq_model where_ select];
    apply filter_ext_bool; intros r; unfold selects; simpl;
    rewrite ?andb_true_r; reflexivity.
Qed.


(** X14.  An association created for a user is listed for that user: the
    list [get_social_auth_for_user] gives after [create_social_auth] is
    the list it gave before, with the new association at its end. *)
Theorem create_social_auth_listed cls user uid provider db :
  exists before social db',
    PeeweeUserMixin.get_social_auth_for_user cls user VNone VNone db
    = (Return before, db)
    /\ PeeweeUserMixin.create_social_auth cls user uid provider db
       = (Return social, db')
    /\ PeeweeUserMixin.get_social_auth_for_user cls user VNone VNone db'
       = (Return (before ++ [social])%list, db').
Proof.
  eexists. eexists. eexists.
  split; [apply get_social_auth_for_user_rows|].
  split; [apply create_social_auth_effect|].
  rewrite get_social_auth_for_user_rows, table_insert, List.filter_app.
  do 3 f_equal. simpl. rewrite bool_decide_eq_true_2 by reflexivity.
  reflexivity.
Qed.

(** ** Disconnecting with several associations *)

Lemma allowed_to_disconnect_outcome cls user backend_name association_id db :
  PeeweeUserMixin.allowed_to_disconnect cls user backend_name association_id
    db
  = (Return
       (match has_usable_password user with
        | Some false =>
            existsb
              (fun r =>
                 bool_decide (column r "user" = column (user_row user) "id")
                 && (if bool_decide (association_id = VNone)
                     then negb (bool_decide (column r "provider" = VNone))
                          && negb (bool_decide (column r "provider"
                                                = VStr backend_name))
                     else negb (bool_decide (column r "id" = VNone))
                          && negb (bool_decide (column r "id"
                                                = association_id))))
              (table cls db)
        | _ => true
        end), db).
Proof.
  unfold PeeweeUserMixin.allowed_to_disconnect.
  destruct (has_usable_password user) as [[|]|]; try reflexivity.
  set (q := where_ _ _). unfold bind, count, execute.
  assert (Hmodel : sq_model q = cls) by (unfold q; by destruct association_id).
  rewrite Hmodel. f_equal. f_equal.
  induction (table cls db) as [|r rows IH]; [reflexivity|].
  assert (Hsel : selects q r
                 = (bool_decide (column r "user" = column (user_row user) "id")
                    && (if bool_decide (association_id = VNone)
                        then negb (bool_decide (column r "provider" = VNone))
                             && negb (bool_decide (column r "provider"
                                                   = VStr backend_name))
                        else negb (bool_decide (column r "id" = VNone))
                             && negb (bool_decide (column r "id"
                                                   = association_id))))).
  { unfold q.
    destruct (bool_decide (association_id = VNone)) eqn:Hid;
      cbn [negb where_ select sq_where sq_model reduce_and fold_left py_and
           operand selects eval].
    - apply andb_comm.
    - apply bool_decide_eq_false in Hid.
      destruct association_id; [congruence|..]; apply andb_comm. }
  cbn [List.filter existsb]. rewrite Hsel.
  destruct (_ && _); [|exact IH].
  cbn [length]. rewrite Nat2Z.inj_succ. simpl.
  destruct (Z.of_nat _) eqn:Hz; try reflexivity; lia.
Qed.

(** X15.  A user who has two stored associations under different keys
    is allowed to disconnect any association named by its id, with or
    without a usable password: at least one of the two is not the one
    named. *)
Theorem allowed_to_disconnect_two_associations cls user backend_name
  association_id db a b :
  a ∈ table cls db ->
  b ∈ table cls db ->
  column a "user" = column (user_row user) "id" ->
  column b "user" = column (user_row user) "id" ->
  column a "id" <> VNone ->
  column b "id" <> VNone ->
  column a "id" <> column b "id" ->
  association_id <> VNone ->
  PeeweeUserMixin.allowed_to_disconnect cls user backend_name association_id
    db = (Return true, db).
Proof.
  intros Ha Hb Hua Hub Hna Hnb Hab Hid.
  rewrite allowed_to_disconnect_outcome.
  destruct (has_usable_password user) as [[|]|]; try reflexivity.
  f_equal. f_equal. apply existsb_exists.
  rewrite bool_decide_eq_false_2 by exact Hid.
  destruct (decide (column a "id" = association_id)) as [Heq|Hne].
  - exists b. split; [by apply list_elem_of_In|].
    rewrite bool_decide_eq_true_2 by exact Hub.
    rewrite !bool_decide_eq_false_2 by congruence. reflexivity.
  - exists a. split; [by apply list_elem_of_In|].
    rewrite bool_decide_eq_true_2 by exact Hua.
    rewrite !bool_decide_eq_false_2 by congruence. reflexivity.
Qed.

Lemma allowed_to_disconnect_two_associations_witness :
  Sample.alice_google ∈ table Sample.UserSocialAuth Sample.two_google_accounts
  /\ Sample.alice_google_second
       ∈ table Sample.UserSocialAuth Sample.two_google_accounts
  /\ PeeweeUserMixin.allowed_to_disconnect Sample.UserSocialAuth
       Sample.alice_no_password "google" (VInt 1) Sample.two_google_accounts
     = (Return true, Sample.two_google_accounts).
Proof.
  assert (Htable : table Sample.UserSocialAuth Sample.two_google_accounts
                   = [Sample.alice_google; Sample.alice_google_second])
    by reflexivity.
  assert (Ha : Sample.alice_google
                 ∈ table Sample.UserSocialAuth Sample.two_google_accounts)
    by (rewrite Htable; left).
  assert (Hb : Sample.alice_google_second
                 ∈ table Sample.UserSocialAuth Sample.two_google_accounts)
    by (rewrite Htable; right; left).
  split; [exact Ha|]. split; [exact Hb|].
  apply (allowed_to_disconnect_two_associations Sample.UserSocialAuth
           Sample.alice_no_password "google" (VInt 1)
           Sample.two_google_accounts Sample.alice_google
           Sample.alice_google_second Ha Hb);
    (reflexivity || discriminate).
Defined.

(** X16.  Named by backend, the association to disconnect is every
    association of that provider: a user without a usable password whose
    associations all come from the backend is refused, however many of
    them there are. *)
Theorem allowed_to_disconnect_same_provider cls user backend_name db :
  has_usable_password user = Some false ->
  Forall (fun r => column r "user" = column (user_row user) "id" ->
                   column r "provider" = VStr backend_name)
         (table cls db) ->
  PeeweeUserMixin.allowed_to_disconnect cls user backend_name VNone db
  = (Return false, db).
Proof.
  intros Hpw Hall. rewrite allowed_to_disconnect_outcome, Hpw.
  f_equal. f_equal.
  induction Hall as [|r rows Hr _ IH]; [reflexivity|].
  cbn [existsb]. rewrite IH, orb_false_r.
  rewrite (bool_decide_eq_true_2 (VNone = VNone)) by reflexivity.
  destruct (decide (column r "user" = column (user_row user) "id"))
    as [Hu|Hu].
  - rewrite (bool_decide_eq_true_2 (column r "provider" = VStr backend_name))
      by auto.
    simpl. by rewrite !andb_false_r.
  - by rewrite (bool_decide_eq_false_2 _ Hu).
Qed.

Lemma allowed_to_disconnect_same_provider_witness :
  has_usable_password Sample.alice_no_password = Some false
  /\ Forall (fun r => column r "user"
                      = column (user_row Sample.alice_no_password) "id" ->
                      column r "provider" = VStr "google")
            (table Sample.UserSocialAuth Sample.two_google_accounts)
  /\ PeeweeUserMixin.allowed_to_disconnect Sample.UserSocialAuth
       Sample.alice_no_password "google" VNone Sample.two_google_accounts
     = (Return false, Sample.two_google_accounts).
Proof.
  assert (Hall : Forall (fun r => column r "user"
                          = column (user_row Sample.alice_no_password) "id" ->
                          column r "provider" = VStr "google")
                        (table Sample.UserSocialAuth
                               Sample.two_google_accounts)).
  { assert (Htable : table Sample.UserSocialAuth Sample.two_google_accounts
                     = [Sample.alice_google; Sample.alice_google_second])
      by reflexivity.
    rewrite Htable. repeat constructor. }
  split; [reflexivity|]. split; [exact Hall|].
  exact (allowed_to_disconnect_same_provider Sample.UserSocialAuth
           Sample.alice_no_password "google" Sample.two_google_accounts
           eq_refl Hall).
Defined.

(** ** Saving a user *)

Lemma column_id_lookup (r : row) n :
  column r "id" = VInt n <-> r !! "id" = Some (VInt n).
Proof.
  unfold column. destruct (r !! "id"); simpl; split; intros H; congruence.
Qed.



(** X18.  [changed] on a user whose key no stored user has stores
    nothing: the save is an update that meets no row, and the user table
    is what it was. *)
Theorem changed_unknown_user user_model user n db :
  column (user_row user) "id" = VInt n ->
  Forall (fun old => column old "id" <> VInt n) (table user_model db) ->
  exists db',
    PeeweeUserMixin.changed user_model user db = (Return tt, db')
    /\ table user_model db' = table user_model db.
Proof.
  intros Hid Hnone.
  unfold PeeweeUserMixin.changed, bind, save.
  apply column_id_int in Hid as Hrow. rewrite Hrow. unfold update.
  eexists. split; [reflexivity|]. rewrite table_insert.
  apply column_id_lookup in Hid.
  induction Hnone as [|x rows Hx _ IH]; [reflexivity|].
  cbn [List.map]. rewrite IH. f_equal.
  rewrite bool_decide_eq_false_2; [reflexivity|].
  intros Heq. apply Hx. apply column_id_lookup. congruence.
Qed.

Lemma changed_unknown_user_witness :
  column (user_row Sample.stranger) "id" = VInt 7
  /\ Forall (fun old => column old "id" <> VInt 7)
            (table Sample.User Sample.users_only)
  /\ exists db',
       PeeweeUserMixin.changed Sample.User Sample.stranger
         Sample.users_only = (Return tt, db')
       /\ table Sample.User db' = table Sample.User Sample.users_only.
Proof.
  assert (Hnone : Forall (fun old => column old "id" <> VInt 7)
                         (table Sample.User Sample.users_only)).
  { assert (Htable : table Sample.User Sample.users_only
                     = [Sample.alice; Sample.bob]) by reflexivity.
    rewrite Htable. repeat constructor; discriminate. }
  split; [reflexivity|]. split; [exact Hnone|].
  exact (changed_unknown_user Sample.User Sample.stranger 7
           Sample.users_only eq_refl Hnone).
Defined.

(** ** Creating a user *)

Lemma list_to_map_get (d : PyDict.dict) k :
  (list_to_map d : row) !! k = PyDict.get d k.
Proof.
  induction d as [|[k' v] d IH]; [reflexivity|].
  cbn [list_to_map foldr PyDict.get]. change (foldr _ _ d) with (list_to_map d : row).
  destruct (String.eqb_spec k' k) as [->|Hne].
  - by rewrite lookup_insert_eq.
  - by rewrite lookup_insert_ne.
Qed.

Lemma contains_false_get d k :
  PyDict.contains d k = false -> PyDict.get d k = None.
Proof.
  unfold PyDict.contains. intros H. apply bool_decide_eq_false in H.
  induction d as [|[k' v] d IH]; [reflexivity|].
  cbn [List.map fst] in H. apply not_elem_of_cons in H as [Hne H].
  cbn [PyDict.get]. destruct (String.eqb_spec k' k); [congruence|].
  by apply IH.
Qed.

Lemma contains_true_get d k :
  PyDict.contains d k = true -> exists v, PyDict.get d k = Some v.
Proof.
  unfold PyDict.contains. intros H. apply bool_decide_eq_true in H.
  induction d as [|[k' v] d IH]; [by apply elem_of_nil in H|].
  cbn [List.map fst] in H. cbn [PyDict.get].
  destruct (String.eqb_spec k' k) as [->|Hne]; [eauto|].
  apply elem_of_cons in H as [H|H]; [congruence|]. by apply IH.
Qed.

Lemma get_setitem_same d k v : PyDict.get (PyDict.setitem d k v) k = Some v.
Proof.
  induction d as [|[k' v'] d IH]; cbn [PyDict.setitem PyDict.get].
  - by rewrite String.eqb_refl.
  - destruct (String.eqb_spec k' k) as [->|Hne]; cbn [PyDict.get].
    + by rewrite String.eqb_refl.
    + apply String.eqb_neq in Hne. by rewrite Hne.
Qed.

(** X19.  The user created by [create_user] carries, as its user name,
    the value given for the user model's user name field, and failing
    that the value given under the alias [username]: the alias is moved
    onto the field when the field itself was not given. *)
Theorem create_user_get_username user_model USERNAME_FIELD kwargs db :
  PeeweeUserMixin.username_field USERNAME_FIELD <> "id" ->
  exists user db',
    PeeweeUserMixin.create_user user_model USERNAME_FIELD [] kwargs db
    = (Return user, db')
    /\ user ∈ table user_model db'
    /\ PeeweeUserMixin.get_username USERNAME_FIELD user
       = match PyDict.get kwargs
                 (PeeweeUserMixin.username_field USERNAME_FIELD) with
         | Some v => v
         | None =>
             match PyDict.get kwargs "username" with
             | Some v => v
             | None => VNone
             end
         end.
Proof.
  intros Hfield. unfold PeeweeUserMixin.create_user, bind.
  set (field := PeeweeUserMixin.username_field USERNAME_FIELD) in *.
  assert (Hcreated : forall d : PyDict.dict,
            exists user db',
              create_call user_model [] d db = (Return user, db')
              /\ user ∈ table user_model db'
              /\ PeeweeUserMixin.get_username USERNAME_FIELD user
                 = match PyDict.get d field with
                   | Some v => v
                   | None => VNone
                   end).
  { intros d. unfold create_call, create, insert. eexists. eexists.
    split; [reflexivity|]. split.
    - rewrite table_insert. apply elem_of_app. right.
      by apply list_elem_of_singleton.
    - unfold PeeweeUserMixin.get_username. fold field.
      rewrite lookup_insert_ne by congruence.
      unfold new_instance. by rewrite list_to_map_get. }
  destruct (PyDict.contains kwargs "username") eqn:Halias;
    [destruct (PyDict.contains kwargs field) eqn:Hgiven|]; cbn [andb negb].
  - destruct (Hcreated kwargs) as (user & db' & Hc & Hin & Hname).
    exists user, db'. unfold ret. rewrite Hc. split; [reflexivity|].
    split; [exact Hin|]. rewrite Hname.
    destruct (contains_true_get _ _ Hgiven) as (v & ->). reflexivity.
  - destruct (contains_true_get _ _ Halias) as (name & Hget).
    unfold PyDict.pop. rewrite Hget. unfold ret at 1.
    destruct (Hcreated (PyDict.setitem (PyDict.remove kwargs "username")
                                       field name))
      as (user & db' & Hc & Hin & Hname).
    exists user, db'. cbn [bind]. unfold bind, ret. rewrite Hc.
    split; [reflexivity|]. split; [exact Hin|].
    rewrite Hname, get_setitem_same, (contains_false_get _ _ Hgiven).
    reflexivity.
  - destruct (Hcreated kwargs) as (user & db' & Hc & Hin & Hname).
    exists user, db'. unfold ret. rewrite Hc. split; [reflexivity|].
    split; [exact Hin|]. rewrite Hname.
    rewrite (contains_false_get _ _ Halias).
    destruct (PyDict.get kwargs field); reflexivity.
Qed.

Lemma create_user_get_username_witness :
  PeeweeUserMixin.username_field (Some "email") <> "id"
  /\ exists user db',
       PeeweeUserMixin.create_user Sample.User (Some "email") []
         [("username", VStr "carol@example.org")] Sample.users_only
       = (Return user, db')
       /\ user ∈ table Sample.User db'
       /\ PeeweeUserMixin.get_username (Some "email") user
          = VStr "carol@example.org".
Proof.
  split; [discriminate|].
  apply (create_user_get_username Sample.User (Some "email")
           [("username", VStr "carol@example.org")] Sample.users_only).
  discriminate.
Defined.

(** ** Queries that are handed back *)

(** X20.  The association store's [get] with one criterion on a field of
    the model hands back a query that, once run, yields the stored
    associations with that value in that field, in stored order; its
    positional arguments play no part. *)
Theorem association_get_single_criterion cls args field v db :
  field ∈ meta_fields cls ->
  exists q,
    PeeweeAssociationMixin.get cls args [(field, v)] db = (Return q, db)
    /\ execute q db
       = List.filter (fun r => bool_decide (column r field = v))
                     (table cls db).
Proof.
  intros Hfield. unfold PeeweeAssociationMixin.get, bind.
  rewrite get_query_by_dict_param_first by exact Hfield.
  eexists. split; [reflexivity|].
  unfold execute. cbn [sq_model where_ select].
  apply filter_ext_bool. intros r. reflexivity.
Qed.

Lemma association_get_single_criterion_witness :
  "handle" ∈ meta_fields Sample.Association
  /\ exists q,
       PeeweeAssociationMixin.get Sample.Association []
         [("handle", VStr "h1")] Sample.one_openid_association
       = (Return q, Sample.one_openid_association)
       /\ execute q Sample.one_openid_association
          = List.filter (fun r => bool_decide (column r "handle" = VStr "h1"))
              (table Sample.Association Sample.one_openid_association).
Proof.
  assert (Hfield : "handle" ∈ meta_fields Sample.Association)
    by (apply (proj1 (bool_decide_eq_true _)); reflexivity).
  split; [exact Hfield|].
  exact (association_get_single_criterion Sample.Association [] "handle"
           (VStr "h1") Sample.one_openid_association Hfield).
Defined.

(** X21.  Without criteria the association store's [get] hands back a
    query over the whole table: the builder's [None] is no clause to
    [where]. *)
Theorem association_get_without_criteria cls args db :
  exists q,
    PeeweeAssociationMixin.get cls args [] db = (Return q, db)
    /\ execute q db = table cls db.
Proof.
  eexists. split; [reflexivity|]. apply where_None_selects_all.
Qed.

(** X22.  [get_users_by_email] hands back a query that, once run, yields
    the stored users with exactly that e-mail address, in stored order,
    when the user model has an [email] field. *)
Theorem get_users_by_email_rows user_model email db :
  "email" ∈ meta_fields user_model ->
  exists q,
    PeeweeUserMixin.get_users_by_email user_model email db = (Return q, db)
    /\ execute q db
       = List.filter (fun u => bool_decide (column u "email" = email))
                     (table user_model db).
Proof.
  intros Hfield. unfold PeeweeUserMixin.get_users_by_email, bind, class_field.
  rewrite bool_decide_eq_true_2 by exact Hfield.
  eexists. split; [reflexivity|]. reflexivity.
Qed.

Lemma get_users_by_email_rows_witness :
  "email" ∈ meta_fields Sample.User
  /\ exists q,
       PeeweeUserMixin.get_users_by_email Sample.User
         (VStr "bob@example.org") Sample.users_only
       = (Return q, Sample.users_only)
       /\ execute q Sample.users_only
          = List.filter
              (fun u => bool_decide (column u "email"
                                     = VStr "bob@example.org"))
              (table Sample.User Sample.users_only).
Proof.
  assert (Hfield : "email" ∈ meta_fields Sample.User)
    by (apply (proj1 (bool_decide_eq_true _)); reflexivity).
  split; [exact Hfield|].
  exact (get_users_by_email_rows Sample.User (VStr "bob@example.org")
           Sample.users_only Hfield).
Defined.

(** ** Lookups leave the store alone *)

Lemma get_query_by_dict_param_state cls params db :
  snd (get_query_by_dict_param cls params db) = db.
Proof.
  destruct params as [|[field v] rest]; [reflexivity|].
  destruct (decide (field ∈ meta_fields cls)) as [Hin|Hout].
  - by rewrite get_query_by_dict_param_first.
  - by rewrite get_query_by_dict_param_unknown.
Qed.

Lemma get_query_by_dict_param_cases cls params db :
  (exists q, get_query_by_dict_param cls params db = (Return q, db))
  \/ (exists e, get_query_by_dict_param cls params db = (Raise e, db)).
Proof.
  pose proof (get_query_by_dict_param_state cls params db) as Hs.
  destruct (get_query_by_dict_param cls params db) as [[q|e] db'];
    simpl in Hs; subst db'; eauto.
Qed.

(** X23.  The lookups never write: whatever they are asked and whether
    they return or raise, [user_exists], [get_user], [get_social_auth],
    [get_social_auth_for_user], [allowed_to_disconnect], [get_code],
    [load], the association store's [get] and [get_users_by_email] leave
    the store exactly as it was. *)
Theorem lookups_never_write cls user_model user provider uid only_provider
  id backend_name association_id pk kwargs args code token email db :
  snd (PeeweeUserMixin.user_exists user_model kwargs db) = db
  /\ snd (PeeweeUserMixin.get_user user_model pk kwargs db) = db
  /\ snd (PeeweeUserMixin.get_social_auth cls provider uid db) = db
  /\ snd (PeeweeUserMixin.get_social_auth_for_user cls user only_provider
            id db) = db
  /\ snd (PeeweeUserMixin.allowed_to_disconnect cls user backend_name
            association_id db) = db
  /\ snd (PeeweeCodeMixin.get_code cls code db) = db
  /\ snd (PeeweePartialMixin.load cls token db) = db
  /\ snd (PeeweeAssociationMixin.get cls args kwargs db) = db
  /\ snd (PeeweeUserMixin.get_users_by_email user_model email db) = db.
Proof.
  split.
  { unfold PeeweeUserMixin.user_exists, bind.
    by destruct (get_query_by_dict_param_cases user_model kwargs db)
      as [(q & ->)|(e & ->)]. }
  split.
  { unfold PeeweeUserMixin.get_user, try_except, bind.
    destruct (get_query_by_dict_param_cases user_model
                (if truthy pk then [("id", pk)] else kwargs) db)
      as [(q & ->)|(e & ->)].
    - unfold Model_get. rewrite sq_get_find.
      destruct (List.find _ _); [reflexivity|].
      by destruct (is_DoesNotExist _ _).
    - by destruct (is_DoesNotExist _ _). }
  split; [by rewrite get_social_auth_find|].
  split; [by rewrite get_social_auth_for_user_rows|].
  split; [by rewrite allowed_to_disconnect_outcome|].
  split; [by rewrite get_code_find|].
  split; [by rewrite load_find|].
  split.
  { unfold PeeweeAssociationMixin.get, bind.
    by destruct (get_query_by_dict_param_cases cls kwargs db)
      as [(q & ->)|(e & ->)]. }
  unfold PeeweeUserMixin.get_users_by_email, bind, class_field.
  by destruct (bool_decide _).
Qed.

(** ** The stored text of a blob *)

Section JsonText.

Import Json.








End JsonText.




(** ** Finding nothing after a disconnect *)

(** X26.  Once an association has been disconnected, the lookup by its
    provider and uid no longer finds it: when every stored association
    with that provider and uid bears the key of the entry, as under a
    unique natural key, [get_social_auth] returns [None] after
    [disconnect]. *)
Theorem disconnect_then_get_social_auth cls entry provider uid db :
  Forall (fun r => column r "provider" = VStr provider ->
                   column r "uid" = VStr (str uid) ->
                   column r "id" = column entry "id")
         (table cls db) ->
  exists db',
    PeeweeUserMixin.disconnect cls entry db = (Return tt, db')
    /\ PeeweeUserMixin.get_social_auth cls provider uid db'
       = (Return None, db').
Proof.
  intros Hkey. eexists. split; [reflexivity|].
  rewrite get_social_auth_find, table_insert. f_equal. f_equal.
  cbn [eval].
  induction Hkey as [|r rows Hr _ IH]; [reflexivity|].
  cbn [List.filter].
  destruct (decide (column r "id" = column entry "id")) as [Heq|Hne].
  - rewrite (bool_decide_eq_true_2 _ Heq). exact IH.
  - rewrite (bool_decide_eq_false_2 _ Hne). cbn [negb List.find].
    rewrite IH.
    destruct (decide (column r "provider" = VStr provider)) as [Hp|Hp];
      [|by rewrite (bool_decide_eq_false_2 _ Hp)].
    destruct (decide (column r "uid" = VStr (str uid))) as [Hu|Hu];
      [|by rewrite (bool_decide_eq_false_2 _ Hu), andb_false_r].
    exfalso. auto.
Qed.

Lemma disconnect_then_get_social_auth_witness :
  Forall (fun r => column r "provider" = VStr "google" ->
                   column r "uid" = VStr (str (VInt 123)) ->
                   column r "id" = column Sample.alice_google "id")
         (table Sample.UserSocialAuth Sample.two_google_accounts)
  /\ exists db',
       PeeweeUserMixin.disconnect Sample.UserSocialAuth Sample.alice_google
         Sample.two_google_accounts = (Return tt, db')
       /\ PeeweeUserMixin.get_social_auth Sample.UserSocialAuth "google"
            (VInt 123) db'
          = (Return None, db').
Proof.
  assert (Hkey : Forall (fun r => column r "provider" = VStr "google" ->
                           column r "uid" = VStr (str (VInt 123)) ->
                           column r "id" = column Sample.alice_google "id")
                        (table Sample.UserSocialAuth
                               Sample.two_google_accounts)).
  { assert (Htable : table Sample.UserSocialAuth Sample.two_google_accounts
                     = [Sample.alice_google; Sample.alice_google_second])
      by reflexivity.
    rewrite Htable. constructor; [reflexivity|].
    constructor; [|constructor]. intros _ Huid. discriminate Huid. }
  split; [exact Hkey|].
  exact (disconnect_then_get_social_auth Sample.UserSocialAuth
           Sample.alice_google "google" (VInt 123)
           Sample.two_google_accounts Hkey).
Defined.
